(** * pancon: format resolution and the decode-then-encode pass

    A shallow embedding of [main.go] (the revision whose registry is a slice
    of [Coder] values carrying their [Format]) and, in [Module Legacy], of the
    earlier revision whose registry is a Go map keyed by format name.

    Go strings are byte strings and are modelled by [string]; a Go [error]
    built with [fmt.Errorf] is modelled by the message it carries; a function
    returning [(T, error)] returns [T + string]. *)

From Stdlib Require Import Ascii String List Bool Arith Lia Sorted Permutation.
From stdpp Require Import base option gmap strings.

Import ListNotations.
Local Open Scope string_scope.
Local Open Scope list_scope.

(** ** The Go standard library functions used by the resolver *)

Module filepath.

(** [os.IsPathSeparator] on a Unix target. *)
Definition IsPathSeparator (c : ascii) : bool := Ascii.eqb c "/".

(** The loop of [filepath.Ext]: the index runs from [len(path)-1] down to
    [0]; the argument [n] is the index plus one. *)
Fixpoint Ext_from (path : string) (n : nat) : string :=
  match n with
  | O => ""
  | S i =>
      match String.get i path with
      | Some c =>
          if IsPathSeparator c then ""
          else if Ascii.eqb c "." then
                 String.substring i (String.length path - i) path
               else Ext_from path i
      | None => ""
      end
  end.

Definition Ext (path : string) : string := Ext_from path (String.length path).

End filepath.

Module strings.

(** [strings.ToLower] on the bytes of an ASCII string: the letters [A]..[Z]
    move to [a]..[z]; every other byte is kept. Go lower-cases the runes of
    a string that is not ASCII with [unicode.ToLower]; no rune outside ASCII
    has a lower case among the letters of json, yaml, toml, yml, tml and js,
    so keeping those bytes does not change which extensions are recognized. *)
Definition lower_byte (c : ascii) : ascii :=
  let n := nat_of_ascii c in
  if ((65 <=? n) && (n <=? 90))%nat then ascii_of_nat (n + 32) else c.

Fixpoint ToLower (s : string) : string :=
  match s with
  | EmptyString => EmptyString
  | String c r => String (lower_byte c) (ToLower r)
  end.

(** [strings.Join]: the elements with [sep] between neighbours. *)
Fixpoint Join (elems : list string) (sep : string) : string :=
  match elems with
  | [] => ""
  | [e] => e
  | e :: rest => e +:+ sep +:+ Join rest sep
  end.

End strings.

Module sort.

(** [sort.Strings] puts a slice in increasing byte-wise order. Whatever
    algorithm does it, the result is the one increasing rearrangement of the
    slice; it is computed here by insertion. *)
Fixpoint insert (s : string) (l : list string) : list string :=
  match l with
  | [] => [s]
  | x :: rest => if String.leb s x then s :: l else x :: insert s rest
  end.

Fixpoint Strings (l : list string) : list string :=
  match l with
  | [] => []
  | x :: rest => insert x (Strings rest)
  end.

End sort.

(** [e[1:]] on a string already known to be non-empty; the empty string is
    left as it is (the source guards the slice with [e != ""]). *)
Definition drop_first (e : string) : string :=
  match e with
  | EmptyString => EmptyString
  | String _ r => r
  end.

(** The [switch] of [guessformat] that normalizes commonly seen extensions. *)
Definition normalize (e : string) : string :=
  if String.eqb e "js" then "json"
  else if String.eqb e "yml" then "yaml"
  else if String.eqb e "tml" then "toml"
  else e.

(** The extension of a path as [guessformat] computes it before the registry
    is consulted: lower-cased, without its dot, aliases not yet replaced. *)
Definition extension (file : string) : string :=
  drop_first (strings.ToLower (filepath.Ext file)).

(** No byte of [e] is a dot or a path separator. *)
Fixpoint plain (e : string) : bool :=
  match e with
  | EmptyString => true
  | String c r =>
      negb (filepath.IsPathSeparator c) && negb (Ascii.eqb c ".") && plain r
  end.

(** ** Processes: traces of observable actions and how a run ends *)

(** The files a run can hold: the two standard streams, a file obtained from
    [os.Open] and a file obtained from [os.Create]. *)
Inductive handle : Type :=
| Stdin
| Stdout
| Opened (path : string)
| Created (path : string).

Inductive event : Type :=
| EvOpen (path : string)
| EvCreate (path : string)
| EvDecode (src : handle) (err : option string)
| EvEncode (dst : handle) (err : option string)
| EvWrite (dst : handle) (bytes : string)
| EvClose (f : handle)
| EvErrorf (msg : string).

(** How a computation ends: with a value, by [os.Exit] (kingpin's
    [terminate], which runs no deferred call), or by a run-time panic. *)
Inductive ending (A : Type) : Type :=
| Done (a : A)
| Exit (code : nat)
| Panic.

Arguments Done {A} a.
Arguments Exit {A} code.
Arguments Panic {A}.

Definition proc (A : Type) : Type := (list event * ending A)%type.

#[global] Instance proc_ret : MRet proc := fun A a => ([], Done a).

#[global] Instance proc_bind : MBind proc := fun A B f m =>
  match m with
  | (t, Done a) => let '(t', r) := f a in (t ++ t', r)
  | (t, Exit c) => (t, Exit c)
  | (t, Panic) => (t, Panic)
  end.

Definition emit (e : event) : proc unit := ([e], Done tt).

Definition exit {A : Type} (code : nat) : proc A := ([], Exit code).

Definition panic {A : Type} : proc A := ([], Panic).

(** [defer d; body]: the deferred call runs when the body returns and when it
    panics; it does not run when the body ends the process with [os.Exit]. *)
Definition defer {A : Type} (d : proc unit) (body : proc A) : proc A :=
  match body with
  | (t, Done a) => let '(t', r) := d in
                   (t ++ t', match r with Done _ => Done a | Exit c => Exit c | Panic => Panic end)
  | (t, Exit c) => (t, Exit c)
  | (t, Panic) => let '(t', r) := d in
                  (t ++ t', match r with Done _ => Panic | Exit c => Exit c | Panic => Panic end)
  end.

(** kingpin's [Application.Fatalf]: a diagnostic, then [terminate(1)]. *)
Definition Fatalf {A : Type} (msg : string) : proc A :=
  emit (EvErrorf msg);; exit 1.

(** kingpin's [Application.FatalIfError] on an [error] value. *)
Definition FatalIfError (err : option string) (format : string) : proc unit :=
  match err with
  | Some e => Fatalf (format +:+ ": " +:+ e)
  | None => mret tt
  end.

(** [FatalIfError] on the error of a [(T, error)] pair; the value is what the
    code goes on with when the error is nil. *)
Definition FatalIfError_of {A : Type} (r : A + string) (format : string) : proc A :=
  match r with
  | inl a => mret a
  | inr e => Fatalf (format +:+ ": " +:+ e)
  end.

(** ** The operating system a run meets *)

Record OS : Type := {
  open_error : string -> option string;    (* the error of [os.Open path] *)
  create_error : string -> option string;  (* the error of [os.Create path] *)
  close_error : handle -> option string;   (* the error of [f.Close()] *)
  content : handle -> string               (* the bytes a reader yields *)
}.

Definition os_Open (os : OS) (path : string) : proc (handle + string) :=
  emit (EvOpen path);;
  mret (match open_error os path with
        | None => inl (Opened path)
        | Some e => inr e
        end).

Definition os_Create (os : OS) (path : string) : proc (handle + string) :=
  emit (EvCreate path);;
  mret (match create_error os path with
        | None => inl (Created path)
        | Some e => inr e
        end).

Definition Close (os : OS) (f : handle) : proc (option string) :=
  emit (EvClose f);; mret (close_error os f).

(** [file] is the same text in both revisions. Its [format] argument is
    not used by the source either. *)
Definition file (os : OS) (file format : string) (defaultfile : handle)
    (opener : string -> proc (handle + string))
  : proc (handle * proc (option string) + string) :=
  if String.eqb file "" || String.eqb file "-" then
    mret (inl (defaultfile, mret None))
  else
    r ← opener file;
    match r with
    | inr err => mret (inr ("opening " +:+ file +:+ ": " +:+ err))
    | inl f => mret (inl (f, Close os f))
    end.

(** ** The program of [main.go] *)

Section Pancon.

(** The dynamic values ([interface{}]) the third-party decoders build. *)
Variable iface : Type.

(** [map[string]interface{}], the type of [data] in [main]. *)
Definition document : Type := gmap string iface.

(** A decode operation receives the document [v] points to and the bytes of
    the reader; it yields the document afterwards and its [error]. *)
Definition decoder : Type := document -> string -> document * option string.

(** An encode operation receives the document; it yields the bytes it wrote
    to the writer and its [error]. *)
Definition encoder : Type := document -> string * option string.

(** [nil] in a function field is [None]. *)
Record Coder : Type := {
  Format : string;
  Decode : option decoder;
  Encode : option encoder
}.

Fixpoint coderFor_in (cs : list Coder) (format : string) : option Coder :=
  match cs with
  | [] => None
  | c :: rest => if String.eqb (Format c) format then Some c
                 else coderFor_in rest format
  end.

Section Registry.

(** The package variable [coders]; the functions below are stated over any
    registry, the one of the source is [coders] further down. *)
Variable registry : list Coder.

Definition coderFor (format : string) : option Coder :=
  coderFor_in registry format.

Definition guessformat (file : string) : string + string :=
  let e := strings.ToLower (filepath.Ext file) in
  let e := if negb (String.eqb e "") then normalize (drop_first e) else e in
  match coderFor e with
  | Some _ => inl e
  | None => inr ("can not detect format from file " +:+ file +:+ " extension")
  end.

Definition coder (file format action : string) : Coder + string :=
  let resolved :=
    if String.eqb format "" then
      if String.eqb file "" || String.eqb file "-" then
        inr ("format is required when " +:+ action)
      else
        match guessformat file with
        | inr err => inr ("guessing format: " +:+ err)
        | inl f => inl f
        end
    else inl format in
  match resolved with
  | inr err => inr err
  | inl format =>
      match coderFor format with
      | Some c => inl c
      | None => inr ("unknown input format " +:+ format)
      end
  end.

Variable os : OS.

(** [c.Decode(&data, r)]; calling a nil function value panics. *)
Definition call_Decode (c : Coder) (data : document) (r : handle)
  : proc (document * option string) :=
  match Decode c with
  | None => panic
  | Some dec =>
      let '(data', err) := dec data (content os r) in
      emit (EvDecode r err);; mret (data', err)
  end.

(** [c.Encode(w, &data)]. *)
Definition call_Encode (c : Coder) (w : handle) (data : document)
  : proc (option string) :=
  match Encode c with
  | None => panic
  | Some enc =>
      let '(bytes, err) := enc data in
      emit (EvWrite w bytes);; emit (EvEncode w err);; mret err
  end.

(** [main] after [kingpin.MustParse]: the four flag values are its input. *)
Definition main (inputFile inputFormat outputFile outputFormat : string)
  : proc unit :=
  incoder ← FatalIfError_of (coder inputFile inputFormat "reading from stdin") "input";
  match Decode incoder with
  | None => Fatalf ("input format " +:+ Format incoder +:+ " not supported for decoding")
  | Some _ => mret tt
  end;;
  outcoder ← FatalIfError_of (coder outputFile outputFormat "writing to stdout") "output";
  match Decode outcoder with
  | None => Fatalf ("output format " +:+ Format outcoder +:+ " not supported for encoding")
  | Some _ => mret tt
  end;;
  r ← file os inputFile inputFormat Stdin (os_Open os);
  '(infile, incloser) ← FatalIfError_of r "opening input";
  defer (err ← incloser; FatalIfError err "closing input file")
    (r ← file os outputFile outputFormat Stdout (os_Create os);
     '(outfile, outcloser) ← FatalIfError_of r "opening output";
     defer (err ← outcloser; FatalIfError err "closing output file")
       (let data : document := ∅ in
        '(data, err) ← call_Decode incoder data infile;
        FatalIfError err "decoding";;
        err ← call_Encode outcoder outfile data;
        FatalIfError err "encoding")).

End Registry.

(** The three codecs. [readYAML] ... [writeJSON] wrap calls into
    [gopkg.in/yaml.v2], [encoding/json] and [github.com/BurntSushi/toml];
    each stands here for what its call does to the document and the streams. *)
Variables readYAML readJSON readTOML : decoder.
Variables writeYAML writeJSON writeTOML : encoder.

Definition coders : list Coder :=
  [ {| Format := "yaml"; Decode := Some readYAML; Encode := Some writeYAML |};
    {| Format := "json"; Decode := Some readJSON; Encode := Some writeJSON |};
    {| Format := "toml"; Decode := Some readTOML; Encode := Some writeTOML |} ].

(** What [init] appends to [formats], before sorting. *)
Definition formats : list string := map Format coders.

End Pancon.

Arguments Format {iface} c.
Arguments Decode {iface} c.
Arguments Encode {iface} c.
Arguments coderFor_in {iface} cs format.
Arguments coderFor {iface} registry format.
Arguments guessformat {iface} registry file.
Arguments coder {iface} registry file format action.
Arguments call_Decode {iface} os c data r.
Arguments call_Encode {iface} c w data.
Arguments main {iface} registry os inputFile inputFormat outputFile outputFormat.
Arguments coders {iface} readYAML readJSON readTOML writeYAML writeJSON writeTOML.

(** ** [init] of [main.go] *)

(** The line feed of the Go literal ["\n"]. *)
Definition nl : string := String (ascii_of_nat 10) EmptyString.

Section Init.

Variable iface : Type.

(** The [range] loop of [init] over the rest [cs] of the registry, from the
    slices [formats], [encoders] and [decoders] built so far. *)
Fixpoint init_loop (cs : list (Coder iface)) (formats encoders decoders : list string)
  : list string * list string * list string :=
  match cs with
  | [] => (formats, encoders, decoders)
  | coder :: rest =>
      let formats := formats ++ [Format coder] in
      let encoders :=
        match Encode coder with
        | Some _ => encoders ++ [Format coder]
        | None => encoders
        end in
      let decoders :=
        match Decode coder with
        | Some _ => decoders ++ [Format coder]
        | None => decoders
        end in
      init_loop rest formats encoders decoders
  end.

(** [init] on the package variables [coders] and [help] ([formats] starts
    nil): the values of [formats] and [help] afterwards. *)
Definition init (registry : list (Coder iface)) (help : string) : list string * string :=
  let '(formats, encoders, decoders) := init_loop registry [] [] [] in
  let formats := sort.Strings formats in
  let encoders := sort.Strings encoders in
  let decoders := sort.Strings decoders in
  let help := help +:+ nl +:+ nl +:+ "Supported formats for input decoding: "
                   +:+ strings.Join decoders " " in
  let help := help +:+ nl +:+ nl +:+ "Supported formats for output encoding: "
                   +:+ strings.Join encoders " " in
  (formats, help).

(** The bindings that have a decode, respectively an encode, operation. *)
Definition can_decode (c : Coder iface) : bool :=
  match Decode c with Some _ => true | None => false end.

Definition can_encode (c : Coder iface) : bool :=
  match Encode c with Some _ => true | None => false end.

End Init.

Arguments init_loop {iface} cs formats encoders decoders.
Arguments init {iface} registry help.
Arguments can_decode {iface} c.
Arguments can_encode {iface} c.

(** ** The earlier revision: the registry is a Go map *)

Module Legacy.

Section Pancon.

Variable iface : Type.

Record Coder : Type := {
  Encode : option (encoder iface);
  Decode : option (decoder iface)
}.

Section Registry.

(** The package variable [coders], a [map[string]*Coder]. *)
Variable registry : gmap string Coder.

Definition guessformat (file : string) : string + string :=
  let e := strings.ToLower (filepath.Ext file) in
  let e := if negb (String.eqb e "") then normalize (drop_first e) else e in
  match registry !! e with
  | Some _ => inl e
  | None => inr ("can not detect format from file " +:+ file +:+ " extension")
  end.

Definition coder (file format action : string) : Coder + string :=
  let resolved :=
    if String.eqb format "" then
      if String.eqb file "" || String.eqb file "-" then
        inr ("format is required when " +:+ action)
      else
        match guessformat file with
        | inr err => inr ("guessing format: " +:+ err)
        | inl f => inl f
        end
    else inl format in
  match resolved with
  | inr err => inr err
  | inl format =>
      match registry !! format with
      | Some c => inl c
      | None => inr ("unknown input format " +:+ format)
      end
  end.

Variable os : OS.

Definition call_Decode (c : Coder) (data : document iface) (r : handle)
  : proc (document iface * option string) :=
  match Decode c with
  | None => panic
  | Some dec =>
      let '(data', err) := dec data (content os r) in
      emit (EvDecode r err);; mret (data', err)
  end.

Definition call_Encode (c : Coder) (w : handle) (data : document iface)
  : proc (option string) :=
  match Encode c with
  | None => panic
  | Some enc =>
      let '(bytes, err) := enc data in
      emit (EvWrite w bytes);; emit (EvEncode w err);; mret err
  end.

Definition main (inputFile inputFormat outputFile outputFormat : string)
  : proc unit :=
  incoder ← FatalIfError_of (coder inputFile inputFormat "reading from stdin") "input";
  outcoder ← FatalIfError_of (coder outputFile outputFormat "writing to stdout") "output";
  r ← file os inputFile inputFormat Stdin (os_Open os);
  '(infile, incloser) ← FatalIfError_of r "opening input";
  defer (err ← incloser; FatalIfError err "closing input file")
    (r ← file os outputFile outputFormat Stdout (os_Create os);
     '(outfile, outcloser) ← FatalIfError_of r "opening output";
     defer (err ← outcloser; FatalIfError err "closing output file")
       (let data : document iface := ∅ in
        '(data, err) ← call_Decode incoder data infile;
        FatalIfError err "decoding";;
        err ← call_Encode outcoder outfile data;
        FatalIfError err "encoding")).

End Registry.

Variables readYAML readJSON readTOML : decoder iface.
Variables writeYAML writeJSON writeTOML : encoder iface.

Definition yamlFormat : string := "yaml".
Definition jsonFormat : string := "json".
Definition tomlFormat : string := "toml".

Definition formats : list string := [yamlFormat; jsonFormat; tomlFormat].

Definition coders : gmap string Coder :=
  <[yamlFormat := {| Encode := Some writeYAML; Decode := Some readYAML |}]>
  (<[jsonFormat := {| Encode := Some writeJSON; Decode := Some readJSON |}]>
  (<[tomlFormat := {| Encode := Some writeTOML; Decode := Some readTOML |}]> ∅)).

End Pancon.

Arguments Encode {iface} c.
Arguments Decode {iface} c.
Arguments guessformat {iface} registry file.
Arguments coder {iface} registry file format action.
Arguments call_Decode {iface} os c data r.
Arguments call_Encode {iface} c w data.
Arguments main {iface} registry os inputFile inputFormat outputFile outputFormat.
Arguments coders {iface} readYAML readJSON readTOML writeYAML writeJSON writeTOML.

End Legacy.

(** ** Reading a trace *)

(** The run performed an [os.Open] or an [os.Create]. *)
Definition is_io (e : event) : bool :=
  match e with
  | EvOpen _ | EvCreate _ => true
  | _ => false
  end.

(** The run called an encode operation or wrote to a stream. *)
Definition is_output (e : event) : bool :=
  match e with
  | EvEncode _ _ | EvWrite _ _ => true
  | _ => false
  end.

(** The bytes a run wrote, in order. *)
Fixpoint written (t : list event) : string :=
  match t with
  | [] => ""
  | EvWrite _ bytes :: rest => bytes +:+ written rest
  | _ :: rest => written rest
  end.

(** A decode operation of the run returned an error. *)
Definition decode_failed (t : list event) : Prop :=
  exists src err, In (EvDecode src (Some err)) t.

(** No [os.Open] and no [os.Create] in the run. *)
Definition no_io (t : list event) : Prop :=
  forallb (fun e => negb (is_io e)) t = true.

(** No encode call and no write in the run. *)
Definition no_output (t : list event) : Prop :=
  forallb (fun e => negb (is_output e)) t = true.

(** How a run ends after a failed decode: exit code 1 right after the
    diagnostic that carries the decoder's error, nothing encoded, nothing
    written. *)
Definition decode_abort (run : proc unit) : Prop :=
  run.2 = Exit 1
  /\ no_output run.1
  /\ written run.1 = ""
  /\ exists err, last run.1 = Some (EvErrorf ("decoding: " +:+ err)).

(** Every close in the run is the close of the file opened at the named
    input path or of the file created at the named output path. *)
Definition closes_named_only (inputFile outputFile : string) (t : list event) : Prop :=
  forall f, In (EvClose f) t ->
    (f = Opened inputFile /\ inputFile <> "" /\ inputFile <> "-"
     /\ In (EvOpen inputFile) t)
    \/ (f = Created outputFile /\ outputFile <> "" /\ outputFile <> "-"
        /\ In (EvCreate outputFile) t).

(** Nothing is opened and every decode reads standard input. *)
Definition reads_stdin (t : list event) : Prop :=
  forall e, In e t ->
    match e with
    | EvOpen _ => False
    | EvDecode src _ => src = Stdin
    | _ => True
    end.

(** Nothing is created and every encode writes to standard output. *)
Definition writes_stdout (t : list event) : Prop :=
  forall e, In e t ->
    match e with
    | EvCreate _ => False
    | EvWrite dst _ | EvEncode dst _ => dst = Stdout
    | _ => True
    end.

(** A binding of [main.go] seen as a binding of the earlier revision. *)
Definition forget_format {iface : Type} (c : Coder iface) : Legacy.Coder iface :=
  {| Legacy.Encode := Encode c; Legacy.Decode := Decode c |}.

(** The path stands for a standard stream. *)
Definition is_std (file : string) : bool :=
  String.eqb file "" || String.eqb file "-".

(** The stream [main] reads and the stream it writes. *)
Definition input_of (inputFile : string) : handle :=
  if is_std inputFile then Stdin else Opened inputFile.

Definition output_of (outputFile : string) : handle :=
  if is_std outputFile then Stdout else Created outputFile.

(** What acquiring the two streams shows of a run, when it succeeds. *)
Definition acquired (inputFile outputFile : string) : list event :=
  (if is_std inputFile then [] else [EvOpen inputFile])
  ++ (if is_std outputFile then [] else [EvCreate outputFile]).

(** What releasing them shows: the output first, then the input. *)
Definition released (inputFile outputFile : string) : list event :=
  (if is_std outputFile then [] else [EvClose (Created outputFile)])
  ++ (if is_std inputFile then [] else [EvClose (Opened inputFile)]).

(** A complete conversion that wrote [bytes]. *)
Definition converted (inputFile outputFile bytes : string) : list event :=
  acquired inputFile outputFile
  ++ [EvDecode (input_of inputFile) None;
      EvWrite (output_of outputFile) bytes;
      EvEncode (output_of outputFile) None]
  ++ released inputFile outputFile.

(** The closed set of format identifiers and the alias extensions. *)
Definition canonical : list string := ["json"; "yaml"; "toml"].
Definition recognized : list string := ["json"; "yaml"; "toml"; "yml"; "tml"; "js"].

(** ** Conditions on a run *)

(** Increasing byte-wise order, the order [sort.Strings] establishes. *)
Definition increasing : list string -> Prop :=
  Sorted (fun a b => String.leb a b = true).

(** Both formats resolve, to [incoder] and [outcoder], and both bindings
    pass the check [main] makes on them. *)
Definition checks_pass {iface : Type} (registry : list (Coder iface))
    (inputFile inputFormat outputFile outputFormat : string)
    (incoder outcoder : Coder iface) : Prop :=
  coder registry inputFile inputFormat "reading from stdin" = inl incoder
  /\ coder registry outputFile outputFormat "writing to stdout" = inl outcoder
  /\ Decode incoder <> None
  /\ Decode outcoder <> None.

(** The named files can be opened, respectively created. *)
Definition acquirable (os : OS) (inputFile outputFile : string) : Prop :=
  (is_std inputFile = false -> open_error os inputFile = None)
  /\ (is_std outputFile = false -> create_error os outputFile = None).

(** The named files close without error. *)
Definition releasable (os : OS) (inputFile outputFile : string) : Prop :=
  (is_std inputFile = false -> close_error os (Opened inputFile) = None)
  /\ (is_std outputFile = false -> close_error os (Created outputFile) = None).

(** ** A sample world, to run the program on concrete inputs *)

(** A toy codec over text values: decoding stores the bytes read under the
    key [text] and fails on an empty stream; encoding writes them back. *)
Definition sample_read : decoder string := fun data bytes =>
  if String.eqb bytes "" then (data, Some "EOF") else (<["text" := bytes]> data, None).

Definition sample_write : encoder string := fun data =>
  (default "" (data !! "text"), None).

Definition sample_coders : list (Coder string) :=
  coders sample_read sample_read sample_read
         sample_write sample_write sample_write.

(** Every open, create and close succeeds; standard input and [in.json]
    hold a short text, every other file is empty. *)
Definition sample_os : OS := {|
  open_error := fun _ => None;
  create_error := fun _ => None;
  close_error := fun _ => None;
  content := fun f =>
    match f with
    | Stdin => "a: 1"
    | Opened p => if String.eqb p "in.json" then "{}" else ""
    | _ => ""
    end
|}.

(** A registry with two one-way bindings added to the sample one: [dump] can
    be decoded but not encoded, [sink] can be encoded but not decoded. *)
Definition one_way_coders : list (Coder string) :=
  sample_coders ++
  [ {| Format := "dump"; Decode := Some sample_read; Encode := None |};
    {| Format := "sink"; Decode := None; Encode := Some sample_write |} ].

(** A file system with three faults: [missing.json] cannot be opened,
    [readonly.yaml] cannot be created and the created [full.toml] fails
    to close. *)
Definition faulty_os : OS := {|
  open_error := fun p =>
    if String.eqb p "missing.json" then Some "no such file" else None;
  create_error := fun p =>
    if String.eqb p "readonly.yaml" then Some "permission denied" else None;
  close_error := fun f =>
    match f with
    | Created p => if String.eqb p "full.toml" then Some "no space left" else None
    | _ => None
    end;
  content := content sample_os
|}.

(** An encoder that gives up after a few bytes, and a registry whose toml
    binding encodes with it. *)
Definition refusing_write : encoder string := fun _ =>
  ("# part", Some "unsupported value").

Definition refusing_coders : list (Coder string) :=
  coders sample_read sample_read sample_read
         sample_write sample_write refusing_write.

(** The map of the earlier revision with a binding that cannot decode. *)
Definition legacy_one_way : gmap string (Legacy.Coder string) :=
  <["sink" := {| Legacy.Encode := Some sample_write; Legacy.Decode := None |}]>
    (Legacy.coders sample_read sample_read sample_read
                   sample_write sample_write sample_write).

(** * Facts *)

(** ** Strings *)

Lemma length_append (s1 s2 : string) :
  String.length (s1 +:+ s2) = String.length s1 + String.length s2.
Proof. induction s1 as [|c s1 IH]; simpl; [reflexivity | now rewrite IH]. Qed.

Lemma get_append_right (s1 s2 : string) (n : nat) :
  String.get (String.length s1 + n) (s1 +:+ s2) = String.get n s2.
Proof. induction s1 as [|c s1 IH]; simpl; [reflexivity | exact IH]. Qed.

Lemma substring_whole (s : string) :
  String.substring 0 (String.length s) s = s.
Proof. induction s as [|c s IH]; simpl; [reflexivity | now rewrite IH]. Qed.

Lemma substring_append_right (s1 s2 : string) :
  String.substring (String.length s1) (String.length s2) (s1 +:+ s2) = s2.
Proof. induction s1 as [|c s1 IH]; simpl; [apply substring_whole | exact IH]. Qed.

(** ** [filepath.Ext] *)

Lemma plain_get (e : string) (n : nat) (c : ascii) :
  plain e = true -> String.get n e = Some c ->
  filepath.IsPathSeparator c = false /\ Ascii.eqb c "." = false.
Proof.
  revert n. induction e as [|a e IH]; intros n Hp Hg; [destruct n; discriminate|].
  simpl in Hp. apply andb_prop in Hp as [Ha Hp]. apply andb_prop in Ha as [Hs Hd].
  destruct n as [|n]; simpl in Hg.
  - injection Hg as <-. split; now apply negb_true_iff.
  - eauto.
Qed.

Lemma get_in_range (e : string) (n : nat) :
  n < String.length e -> exists c, String.get n e = Some c.
Proof.
  revert n. induction e as [|a e IH]; intros n Hn; simpl in Hn; [lia|].
  destruct n as [|n]; simpl; [eauto | apply IH; lia].
Qed.

Lemma Ext_from_suffix (stem e : string) (k : nat) :
  plain e = true -> k <= String.length e ->
  filepath.Ext_from (stem +:+ String "." e) (String.length stem + S k) = String "." e.
Proof.
  intros Hp. induction k as [|k IH]; intros Hk.
  - replace (String.length stem + 1) with (S (String.length stem + 0)) by lia.
    simpl filepath.Ext_from. rewrite get_append_right. simpl.
    rewrite length_append. simpl String.length.
    replace (String.length stem + S (String.length e) - (String.length stem + 0))
      with (String.length (String "." e)) by (simpl; lia).
    replace (String.length stem + 0) with (String.length stem) by lia.
    apply substring_append_right.
  - replace (String.length stem + S (S k)) with (S (String.length stem + S k)) by lia.
    simpl filepath.Ext_from. rewrite get_append_right. simpl String.get.
    destruct (get_in_range e k) as [c Hc]; [lia|]. rewrite Hc.
    destruct (plain_get e k c Hp Hc) as [-> ->]. apply IH. lia.
Qed.

(** A path that ends in a dot followed by plain bytes has exactly that
    ending as its extension, whatever comes before. *)
Lemma Ext_suffix (stem e : string) :
  plain e = true -> filepath.Ext (stem +:+ String "." e) = String "." e.
Proof.
  intros Hp. unfold filepath.Ext. rewrite length_append. simpl String.length.
  apply Ext_from_suffix; [exact Hp | lia].
Qed.

Lemma suffix_not_sentinel (stem e : string) :
  String.length e >= 2 ->
  String.eqb (stem +:+ e) "" || String.eqb (stem +:+ e) "-" = false.
Proof.
  intros He. apply orb_false_iff. split; apply String.eqb_neq; intros H;
    apply (f_equal String.length) in H; rewrite length_append in H; simpl in H; lia.
Qed.

(** ** The resolver over the registry of the source *)

Section Resolver.

Variable iface : Type.
Variables readYAML readJSON readTOML : decoder iface.
Variables writeYAML writeJSON writeTOML : encoder iface.

Local Abbreviation coders :=
  (coders readYAML readJSON readTOML writeYAML writeJSON writeTOML).

Local Abbreviation yamlCoder :=
  {| Format := "yaml"; Decode := Some readYAML; Encode := Some writeYAML |}.
Local Abbreviation jsonCoder :=
  {| Format := "json"; Decode := Some readJSON; Encode := Some writeJSON |}.
Local Abbreviation tomlCoder :=
  {| Format := "toml"; Decode := Some readTOML; Encode := Some writeTOML |}.

Lemma coderFor_coders (format : string) :
  coderFor coders format =
    if String.eqb "yaml" format then Some yamlCoder
    else if String.eqb "json" format then Some jsonCoder
    else if String.eqb "toml" format then Some tomlCoder
    else None.
Proof. reflexivity. Qed.

(** A registry hit carries the format it was asked for, in any registry. *)
Lemma coderFor_Format (registry : list (Coder iface)) (format : string) (c : Coder iface) :
  coderFor registry format = Some c -> Format c = format.
Proof.
  unfold coderFor. induction registry as [|c0 rest IH]; simpl; [discriminate|].
  destruct (String.eqb_spec (Format c0) format) as [E|_]; [|exact IH].
  now intros [= <-].
Qed.

Lemma coderFor_canonical (format : string) :
  In format canonical ->
  exists c, coderFor coders format = Some c /\ Format c = format.
Proof.
  simpl. intros [<-|[<-|[<-|[]]]]; eexists; split; reflexivity.
Qed.

Lemma coderFor_unknown (format : string) :
  ~ In format canonical -> coderFor coders format = None.
Proof.
  intros H. rewrite coderFor_coders.
  destruct (String.eqb_spec "yaml" format) as [<-|_]; [exfalso; apply H; simpl; tauto|].
  destruct (String.eqb_spec "json" format) as [<-|_]; [exfalso; apply H; simpl; tauto|].
  destruct (String.eqb_spec "toml" format) as [<-|_]; [exfalso; apply H; simpl; tauto|].
  reflexivity.
Qed.

Lemma normalize_recognized (e : string) :
  In e recognized -> In (normalize e) canonical.
Proof.
  simpl. intros [<-|[<-|[<-|[<-|[<-|[<-|[]]]]]]]; simpl; tauto.
Qed.

Lemma normalize_canonical (e : string) :
  In (normalize e) canonical -> In e recognized.
Proof.
  unfold normalize.
  destruct (String.eqb_spec e "js") as [->|_]; [simpl; tauto|].
  destruct (String.eqb_spec e "yml") as [->|_]; [simpl; tauto|].
  destruct (String.eqb_spec e "tml") as [->|_]; [simpl; tauto|].
  simpl. tauto.
Qed.

(** The candidate [guessformat] looks up is the normalized extension. *)
Lemma guessformat_candidate (registry : list (Coder iface)) (file : string) :
  guessformat registry file =
    match coderFor registry (normalize (extension file)) with
    | Some _ => inl (normalize (extension file))
    | None => inr ("can not detect format from file " +:+ file +:+ " extension")
    end.
Proof.
  unfold guessformat, extension.
  destruct (strings.ToLower (filepath.Ext file)) as [|c e]; reflexivity.
Qed.

Lemma coder_inferred (registry : list (Coder iface)) (file action : string) :
  file <> "" -> file <> "-" ->
  coder registry file "" action =
    match coderFor registry (normalize (extension file)) with
    | Some c => inl c
    | None => inr ("guessing format: can not detect format from file "
                   +:+ file +:+ " extension")
    end.
Proof.
  intros H1 H2. unfold coder. simpl String.eqb at 1. cbv iota.
  apply String.eqb_neq in H1, H2. rewrite H1, H2. simpl orb. cbv iota.
  rewrite guessformat_candidate.
  destruct (coderFor registry (normalize (extension file))) eqn:E.
  - rewrite E. reflexivity.
  - reflexivity.
Qed.

Lemma extension_suffix (stem e : string) :
  plain e = true -> extension (stem +:+ String "." e) = strings.ToLower e.
Proof. intros Hp. unfold extension. now rewrite Ext_suffix. Qed.

Lemma suffix_named (stem e : string) :
  String.length e >= 2 -> stem +:+ e <> "" /\ stem +:+ e <> "-".
Proof.
  intros He. pose proof (suffix_not_sentinel stem e He) as H.
  apply orb_false_iff in H as [H1 H2]. split; now apply String.eqb_neq.
Qed.

(** C2 (amended). For every path other than the empty path and the sentinel
    ["-"], resolution with no explicit format goes by the extension: when
    the lower-cased extension is one of json, yaml, toml, yml, tml, js, the
    coder returned is the one of the alias-normalized identifier; otherwise
    resolution fails with the error that names the path, wrapped as
    "guessing format: can not detect format from file <path> extension". *)
Theorem extension_inference (file action : string) :
  file <> "" -> file <> "-" ->
  (In (extension file) recognized ->
     exists c, coder coders file "" action = inl c
               /\ Format c = normalize (extension file)
               /\ In (Format c) canonical)
  /\ (~ In (extension file) recognized ->
     coder coders file "" action =
       inr ("guessing format: can not detect format from file "
            +:+ file +:+ " extension")).
Proof.
  intros H1 H2. rewrite (coder_inferred coders file action H1 H2). split.
  - intros Hin. apply normalize_recognized in Hin.
    destruct (coderFor_canonical _ Hin) as (c & -> & Hc).
    exists c. rewrite Hc. auto.
  - intros Hout. rewrite coderFor_unknown; [reflexivity|].
    intros Hin. apply Hout. now apply normalize_canonical.
Qed.

(** C3. For every path and every explicit format among json, yaml and toml,
    resolution returns the coder of that format; the path is not consulted:
    every other path and action give the same coder. *)
Theorem explicit_format_wins (f file action : string) :
  In f canonical ->
  exists c, coder coders file f action = inl c
            /\ Format c = f
            /\ forall file' action', coder coders file' f action' = inl c.
Proof.
  intros Hin.
  assert (Hne : String.eqb f "" = false).
  { apply String.eqb_neq. intros ->. simpl in Hin. intuition discriminate. }
  destruct (coderFor_canonical _ Hin) as (c & Hc & Hf).
  exists c. unfold coder. rewrite Hne, Hc. auto.
Qed.

(** C4. With no explicit format and a path that is empty or ["-"],
    resolution fails with "format is required when <action>", carrying the
    action the caller gave; this holds in every registry, so neither the
    registry nor the extension inference that consults it takes part. *)
Theorem format_required_for_std_streams
    (registry : list (Coder iface)) (file action : string) :
  file = "" \/ file = "-" ->
  coder registry file "" action = inr ("format is required when " +:+ action).
Proof. intros [->| ->]; reflexivity. Qed.

(** C7. The alias tokens yml, tml and js fail as explicit formats, whatever
    the path, with "unknown input format <token>"; a path that ends in .yml,
    .tml or .js resolves, with no explicit format, to the yaml, toml and json
    coder respectively. *)
Theorem aliases_only_inferred (file stem action : string) :
  coder coders file "yml" action = inr "unknown input format yml"
  /\ coder coders file "tml" action = inr "unknown input format tml"
  /\ coder coders file "js" action = inr "unknown input format js"
  /\ coder coders (stem +:+ ".yml") "" action = inl yamlCoder
  /\ coder coders (stem +:+ ".tml") "" action = inl tomlCoder
  /\ coder coders (stem +:+ ".js") "" action = inl jsonCoder.
Proof.
  repeat split; try reflexivity.
  - destruct (suffix_named stem ".yml") as [H1 H2]; [simpl; lia|].
    rewrite (coder_inferred coders _ action H1 H2).
    now rewrite (extension_suffix stem "yml").
  - destruct (suffix_named stem ".tml") as [H1 H2]; [simpl; lia|].
    rewrite (coder_inferred coders _ action H1 H2).
    now rewrite (extension_suffix stem "tml").
  - destruct (suffix_named stem ".js") as [H1 H2]; [simpl; lia|].
    rewrite (coder_inferred coders _ action H1 H2).
    now rewrite (extension_suffix stem "js").
Qed.

End Resolver.

(** The alias table of [guessformat], entry by entry. *)
Example normalize_table :
  map normalize recognized = ["json"; "yaml"; "toml"; "yaml"; "toml"; "json"].
Proof. reflexivity. Qed.

(** The sentinel has no extension, yet resolution does not report an
    undetectable extension for it: it reports the missing format. *)
Lemma sentinel_is_not_guessed :
  ~ In (extension "-") recognized
  /\ coder sample_coders "-" "" "writing to stdout"
     = inr "format is required when writing to stdout"
  /\ coder sample_coders "-" "" "writing to stdout"
     <> inr ("guessing format: can not detect format from file "
             +:+ "-" +:+ " extension").
Proof.
  split; [|split].
  - simpl. intuition discriminate.
  - reflexivity.
  - discriminate.
Qed.

Lemma extension_inference_witness :
  "conf/app.YML" <> "" /\ "conf/app.YML" <> "-"
  /\ (In (extension "conf/app.YML") recognized ->
      exists c, coder sample_coders "conf/app.YML" "" "reading from stdin" = inl c
                /\ Format c = normalize (extension "conf/app.YML")
                /\ In (Format c) canonical)
  /\ (~ In (extension "conf/app.YML") recognized ->
      coder sample_coders "conf/app.YML" "" "reading from stdin" =
        inr ("guessing format: can not detect format from file "
             +:+ "conf/app.YML" +:+ " extension")).
Proof.
  split; [discriminate|]. split; [discriminate|].
  apply (extension_inference string sample_read sample_read sample_read
           sample_write sample_write sample_write
           "conf/app.YML" "reading from stdin"); discriminate.
Defined.

Lemma explicit_format_wins_witness :
  In "toml" canonical
  /\ exists c, coder sample_coders "conf/app.json" "toml" "reading from stdin" = inl c
               /\ Format c = "toml"
               /\ forall file' action', coder sample_coders file' "toml" action' = inl c.
Proof.
  assert (H : In "toml" canonical) by (simpl; tauto).
  split; [exact H|].
  exact (explicit_format_wins string sample_read sample_read sample_read
           sample_write sample_write sample_write
           "toml" "conf/app.json" "reading from stdin" H).
Defined.

Lemma format_required_for_std_streams_witness :
  ("-" = "" \/ "-" = "-")
  /\ coder sample_coders "-" "" "reading from stdin"
     = inr "format is required when reading from stdin".
Proof.
  split; [right; reflexivity|].
  apply (format_required_for_std_streams string sample_coders "-" "reading from stdin").
  right; reflexivity.
Defined.

(** ** Runs of [main] *)

Ltac step_main :=
  unfold main, file, FatalIfError_of, FatalIfError, Fatalf, call_Decode,
    call_Encode, defer, os_Open, os_Create, Close, emit, exit, panic,
    mbind, mret, proc_bind, proc_ret.

(** Every branch of [main], each with its trace written out. *)
Ltac main_cases := step_main; repeat (case_match; simplify_eq; cbn).

Lemma named_of_eqb (p : string) :
  String.eqb p "" || String.eqb p "-" = false -> p <> "" /\ p <> "-".
Proof.
  intros H. apply orb_false_iff in H as [H1 H2]. split; now apply String.eqb_neq.
Qed.

Lemma sentinel_of_eqb (p : string) :
  String.eqb p "" || String.eqb p "-" = true -> p = "" \/ p = "-".
Proof.
  intros H. apply orb_true_iff in H as [H|H]; apply String.eqb_eq in H; auto.
Qed.

(** Turns the tests [main_cases] recorded on the paths into statements. *)
Ltac name_paths :=
  repeat match goal with
  | H : String.eqb ?p "" || String.eqb ?p "-" = false |- _ =>
      apply named_of_eqb in H; destruct H
  | H : String.eqb ?p "" || String.eqb ?p "-" = true |- _ =>
      apply sentinel_of_eqb in H
  end.

Lemma proc_eta {A : Type} (m : proc A) : (let '(t, r) := m in (t, r)) = m.
Proof. now destruct m. Qed.

Lemma file_default (os : OS) (path format : string) (defaultfile : handle)
    (opener : string -> proc (handle + string)) :
  path = "" \/ path = "-" ->
  file os path format defaultfile opener
  = ([], Done (inl (defaultfile, ([], Done None)))).
Proof. intros [->| ->]; reflexivity. Qed.

Section Runs.

Variable iface : Type.
Variable registry : list (Coder iface).
Variable os : OS.

Lemma main_input_unresolved (inputFile inputFormat outputFile outputFormat e : string) :
  coder registry inputFile inputFormat "reading from stdin" = inr e ->
  main registry os inputFile inputFormat outputFile outputFormat
  = ([EvErrorf ("input: " +:+ e)], Exit 1).
Proof. intros H. unfold main. rewrite H. reflexivity. Qed.

Lemma main_input_undecodable
    (inputFile inputFormat outputFile outputFormat : string) (incoder : Coder iface) :
  coder registry inputFile inputFormat "reading from stdin" = inl incoder ->
  Decode incoder = None ->
  main registry os inputFile inputFormat outputFile outputFormat
  = ([EvErrorf ("input format " +:+ Format incoder +:+ " not supported for decoding")],
     Exit 1).
Proof. intros H1 H2. unfold main. rewrite H1. cbn. rewrite H2. reflexivity. Qed.

Lemma main_output_unresolved
    (inputFile inputFormat outputFile outputFormat e : string) (incoder : Coder iface) :
  coder registry inputFile inputFormat "reading from stdin" = inl incoder ->
  Decode incoder <> None ->
  coder registry outputFile outputFormat "writing to stdout" = inr e ->
  main registry os inputFile inputFormat outputFile outputFormat
  = ([EvErrorf ("output: " +:+ e)], Exit 1).
Proof.
  intros H1 H2 H3. unfold main. rewrite H1. cbn.
  destruct (Decode incoder); [|congruence]. cbn. rewrite H3. reflexivity.
Qed.

(** When either resolution fails the run is a single diagnostic followed by
    exit code 1, in any registry. *)
Lemma main_unresolved (inputFile inputFormat outputFile outputFormat : string) :
  (exists e, coder registry inputFile inputFormat "reading from stdin" = inr e)
  \/ (exists e, coder registry outputFile outputFormat "writing to stdout" = inr e) ->
  exists msg,
    main registry os inputFile inputFormat outputFile outputFormat
    = ([EvErrorf msg], Exit 1).
Proof.
  intros [[e H]|[e H]].
  - exists ("input: " +:+ e). apply main_input_unresolved, H.
  - destruct (coder registry inputFile inputFormat "reading from stdin")
      as [incoder|e1] eqn:Hin.
    + destruct (Decode incoder) as [dec|] eqn:Hdec.
      * exists ("output: " +:+ e).
        apply (main_output_unresolved _ _ _ _ _ incoder); congruence.
      * exists ("input format " +:+ Format incoder +:+ " not supported for decoding").
        apply main_input_undecodable; assumption.
    + exists ("input: " +:+ e1). apply main_input_unresolved, Hin.
Qed.

(** The case analysis behind C6, shared with the earlier revision. *)
Lemma main_decode_abort (inputFile inputFormat outputFile outputFormat : string) :
  decode_failed (main registry os inputFile inputFormat outputFile outputFormat).1 ->
  decode_abort (main registry os inputFile inputFormat outputFile outputFormat).
Proof.
  intros (src & err & Hfail). revert Hfail. unfold decode_abort, no_output.
  main_cases; intros Hfail;
    first [ exfalso; clear -Hfail; intuition discriminate
          | repeat split; eexists; reflexivity ].
Qed.

(** The case analysis behind C9, shared with the earlier revision. *)
Lemma main_streams (inputFile inputFormat outputFile outputFormat : string) :
  closes_named_only inputFile outputFile
    (main registry os inputFile inputFormat outputFile outputFormat).1
  /\ (inputFile = "" \/ inputFile = "-" ->
      reads_stdin (main registry os inputFile inputFormat outputFile outputFormat).1)
  /\ (outputFile = "" \/ outputFile = "-" ->
      writes_stdout (main registry os inputFile inputFormat outputFile outputFormat).1).
Proof.
  unfold closes_named_only, reads_stdin, writes_stdout.
  main_cases; name_paths; (split; [|split]).
  all: try (intros fd Hf; simpl in Hf; decompose [or] Hf; try discriminate;
            try contradiction; simplify_eq; simpl;
            first [ left; repeat split; auto; tauto
                  | right; repeat split; auto; tauto ]).
  all: intros Hs ev Hev;
    first [ exfalso; destruct Hs; congruence
          | simpl in Hev; decompose [or] Hev; try contradiction; subst ev;
            simpl; auto ].
Qed.

(** C6. In every run of [main] in which a decode operation returns an
    error, the run ends with exit code 1 right after the diagnostic
    "decoding: <error>"; no encode operation is called and no byte is
    written. This holds for every registry, every state of the file system
    and all four flag values. *)
Theorem decode_failure_writes_nothing
    (inputFile inputFormat outputFile outputFormat : string) :
  decode_failed (main registry os inputFile inputFormat outputFile outputFormat).1 ->
  decode_abort (main registry os inputFile inputFormat outputFile outputFormat).
Proof. apply main_decode_abort. Qed.

(** C9. [file] on an empty path or on ["-"] hands back the stream it was
    given, together with a release that does nothing (no action, nil error),
    and calls no opener. In every run of [main]: a close is a close of the
    file opened at the named input path or of the file created at the named
    output path; with a sentinel input path nothing is opened and decoding
    reads standard input; with a sentinel output path nothing is created and
    encoding writes to standard output. *)
Theorem std_streams_never_closed
    (inputFile inputFormat outputFile outputFormat : string) :
  (forall path format defaultfile opener,
     path = "" \/ path = "-" ->
     file os path format defaultfile opener
     = ([], Done (inl (defaultfile, ([], Done None)))))
  /\ closes_named_only inputFile outputFile
       (main registry os inputFile inputFormat outputFile outputFormat).1
  /\ (inputFile = "" \/ inputFile = "-" ->
      reads_stdin (main registry os inputFile inputFormat outputFile outputFormat).1)
  /\ (outputFile = "" \/ outputFile = "-" ->
      writes_stdout (main registry os inputFile inputFormat outputFile outputFormat).1).
Proof. split; [apply file_default | apply main_streams]. Qed.

(** The output binding passes the check of [main] as soon as it has a decode
    operation; when its encode operation is nil, decoding goes ahead and the
    call of the nil function panics. *)
Lemma missing_encode_reaches_decode
    (inputFile inputFormat outputFile outputFormat : string)
    (incoder outcoder : Coder iface) (dec dec' : decoder iface)
    (data : document iface) :
  coder registry inputFile inputFormat "reading from stdin" = inl incoder ->
  Decode incoder = Some dec ->
  coder registry outputFile outputFormat "writing to stdout" = inl outcoder ->
  Decode outcoder = Some dec' ->
  Encode outcoder = None ->
  inputFile = "" \/ inputFile = "-" ->
  outputFile = "" \/ outputFile = "-" ->
  dec ∅ (content os Stdin) = (data, None) ->
  main registry os inputFile inputFormat outputFile outputFormat
  = ([EvDecode Stdin None], Panic).
Proof.
  intros Hin Hdec Hout Hdec' Henc Hi Ho Hrun.
  assert (Ei : String.eqb inputFile "" || String.eqb inputFile "-" = true)
    by (destruct Hi as [->| ->]; reflexivity).
  assert (Eo : String.eqb outputFile "" || String.eqb outputFile "-" = true)
    by (destruct Ho as [->| ->]; reflexivity).
  step_main. rewrite Hin, Hdec, Hout, Hdec', Ei, Eo, Hrun, Henc. reflexivity.
Qed.

(** The same check turns away an output binding that can encode but cannot
    decode. *)
Lemma missing_decode_rejected_for_output
    (inputFile inputFormat outputFile outputFormat : string)
    (incoder outcoder : Coder iface) (dec : decoder iface) :
  coder registry inputFile inputFormat "reading from stdin" = inl incoder ->
  Decode incoder = Some dec ->
  coder registry outputFile outputFormat "writing to stdout" = inl outcoder ->
  Decode outcoder = None ->
  main registry os inputFile inputFormat outputFile outputFormat
  = ([EvErrorf ("output format " +:+ Format outcoder
                +:+ " not supported for encoding")], Exit 1).
Proof.
  intros Hin Hdec Hout Hdec'. step_main.
  rewrite Hin, Hdec, Hout, Hdec'. reflexivity.
Qed.

End Runs.

Section RegistryRuns.

Variable iface : Type.
Variables readYAML readJSON readTOML : decoder iface.
Variables writeYAML writeJSON writeTOML : encoder iface.
Variable os : OS.

Local Abbreviation coders :=
  (coders readYAML readJSON readTOML writeYAML writeJSON writeTOML).

Lemma coder_unknown_explicit (file format action : string) :
  format <> "" -> ~ In format canonical ->
  coder coders file format action = inr ("unknown input format " +:+ format).
Proof.
  intros Hne Hout. unfold coder.
  apply String.eqb_neq in Hne. rewrite Hne.
  now rewrite (coderFor_unknown iface readYAML readJSON readTOML
                 writeYAML writeJSON writeTOML format Hout).
Qed.

Lemma unknown_explicit_unresolved
    (inputFile inputFormat outputFile outputFormat : string) :
  (inputFormat <> "" /\ ~ In inputFormat canonical)
  \/ (outputFormat <> "" /\ ~ In outputFormat canonical)
  \/ (exists e, coder coders inputFile inputFormat "reading from stdin" = inr e)
  \/ (exists e, coder coders outputFile outputFormat "writing to stdout" = inr e) ->
  (exists e, coder coders inputFile inputFormat "reading from stdin" = inr e)
  \/ (exists e, coder coders outputFile outputFormat "writing to stdout" = inr e).
Proof.
  intros [[H1 H2]|[[H1 H2]|[H|H]]]; auto.
  - left. eexists. now apply coder_unknown_explicit.
  - right. eexists. now apply coder_unknown_explicit.
Qed.

(** C8. An explicit format that is a non-empty token outside json, yaml
    and toml makes its resolution fail; and whenever the resolution of the
    input or of the output format fails, the run of [main] is one diagnostic
    followed by exit code 1: no file is opened and none is created. *)
Theorem unknown_format_rejected_before_io
    (inputFile inputFormat outputFile outputFormat : string) :
  (inputFormat <> "" /\ ~ In inputFormat canonical)
  \/ (outputFormat <> "" /\ ~ In outputFormat canonical)
  \/ (exists e, coder coders inputFile inputFormat "reading from stdin" = inr e)
  \/ (exists e, coder coders outputFile outputFormat "writing to stdout" = inr e) ->
  ((exists e, coder coders inputFile inputFormat "reading from stdin" = inr e)
   \/ (exists e, coder coders outputFile outputFormat "writing to stdout" = inr e))
  /\ (exists msg,
        main coders os inputFile inputFormat outputFile outputFormat
        = ([EvErrorf msg], Exit 1))
  /\ no_io (main coders os inputFile inputFormat outputFile outputFormat).1.
Proof.
  intros H. apply unknown_explicit_unresolved in H as Hfail.
  split; [exact Hfail|].
  destruct (main_unresolved iface coders os _ _ _ _ Hfail) as [msg Hrun].
  rewrite Hrun. split; [exists msg|]; reflexivity.
Qed.

End RegistryRuns.

(** C1. The check [main] makes on the output binding inspects its decode
    operation. With the output format [dump], whose binding has no encode
    operation, the run is not turned away: it decodes standard input and
    panics on the nil encode call. With the output format [sink], whose
    binding can encode, the run is turned away as not supported for
    encoding. *)
Theorem encode_check_inspects_decode :
  main one_way_coders sample_os "-" "yaml" "-" "dump"
  = ([EvDecode Stdin None], Panic)
  /\ main one_way_coders sample_os "-" "yaml" "-" "sink"
     = ([EvErrorf "output format sink not supported for encoding"], Exit 1).
Proof. split; vm_compute; reflexivity. Qed.

Lemma decode_failure_writes_nothing_witness :
  decode_failed (main sample_coders sample_os "empty.yaml" "" "out.json" "").1
  /\ decode_abort (main sample_coders sample_os "empty.yaml" "" "out.json" "").
Proof.
  assert (H : decode_failed
                (main sample_coders sample_os "empty.yaml" "" "out.json" "").1).
  { exists (Opened "empty.yaml"), "EOF". vm_compute. tauto. }
  split; [exact H|].
  exact (decode_failure_writes_nothing string sample_coders sample_os
           "empty.yaml" "" "out.json" "" H).
Defined.

Lemma unknown_format_rejected_before_io_witness :
  ("foo" <> "" /\ ~ In "foo" canonical)
  /\ (exists msg,
        main sample_coders sample_os "in.json" "foo" "out.yaml" ""
        = ([EvErrorf msg], Exit 1))
  /\ no_io (main sample_coders sample_os "in.json" "foo" "out.yaml" "").1.
Proof.
  assert (H : "foo" <> "" /\ ~ In "foo" canonical).
  { split; [discriminate|]. simpl. intuition discriminate. }
  split; [exact H|].
  apply (unknown_format_rejected_before_io string sample_read sample_read
           sample_read sample_write sample_write sample_write sample_os
           "in.json" "foo" "out.yaml" "").
  left. exact H.
Defined.

Lemma std_streams_never_closed_witness :
  ("-" = "" \/ "-" = "-")
  /\ file sample_os "-" "yaml" Stdin (os_Open sample_os)
     = ([], Done (inl (Stdin, ([], Done None))))
  /\ reads_stdin (main sample_coders sample_os "-" "yaml" "out.json" "").1
  /\ In (EvClose (Created "out.json"))
        (main sample_coders sample_os "-" "yaml" "out.json" "").1
  /\ ~ In (EvClose Stdin)
        (main sample_coders sample_os "-" "yaml" "out.json" "").1.
Proof.
  destruct (std_streams_never_closed string sample_coders sample_os
              "-" "yaml" "out.json" "") as (Hfile & Hclose & Hin & Hout).
  assert (Hs : "-" = "" \/ "-" = "-") by (right; reflexivity).
  split; [exact Hs|]. split; [exact (Hfile "-" "yaml" Stdin _ Hs)|].
  split; [exact (Hin Hs)|].
  split; [vm_compute; tauto|].
  intros Hc. destruct (Hclose Stdin Hc) as [(E & _)|(E & _)]; discriminate E.
Defined.

(** ** The two revisions on the registry they ship *)

Section Revisions.

Variable iface : Type.
Variables readYAML readJSON readTOML : decoder iface.
Variables writeYAML writeJSON writeTOML : encoder iface.
Variable os : OS.

Local Abbreviation coders :=
  (coders readYAML readJSON readTOML writeYAML writeJSON writeTOML).
Local Abbreviation legacy_coders :=
  (Legacy.coders readYAML readJSON readTOML writeYAML writeJSON writeTOML).

(** The map of the earlier revision holds the bindings of the slice. *)
Lemma legacy_lookup (format : string) :
  legacy_coders !! format = forget_format <$> coderFor coders format.
Proof.
  rewrite coderFor_coders. unfold Legacy.coders.
  unfold Legacy.yamlFormat, Legacy.jsonFormat, Legacy.tomlFormat.
  destruct (String.eqb_spec "yaml" format) as [<-|N1]; [now rewrite lookup_insert_eq|].
  rewrite lookup_insert_ne by exact N1.
  destruct (String.eqb_spec "json" format) as [<-|N2]; [now rewrite lookup_insert_eq|].
  rewrite lookup_insert_ne by exact N2.
  destruct (String.eqb_spec "toml" format) as [<-|N3]; [now rewrite lookup_insert_eq|].
  rewrite lookup_insert_ne by exact N3. apply lookup_empty.
Qed.

Lemma legacy_guessformat (file : string) :
  Legacy.guessformat legacy_coders file = guessformat coders file.
Proof.
  unfold Legacy.guessformat, guessformat. rewrite legacy_lookup.
  now destruct (coderFor coders _).
Qed.

Lemma legacy_coder (file format action : string) :
  Legacy.coder legacy_coders file format action =
    match coder coders file format action with
    | inl c => inl (forget_format c)
    | inr e => inr e
    end.
Proof.
  unfold Legacy.coder, coder. rewrite legacy_guessformat.
  destruct (String.eqb format "").
  - destruct (String.eqb file "" || String.eqb file "-"); [reflexivity|].
    destruct (guessformat coders file) as [f|e]; [|reflexivity].
    rewrite legacy_lookup. now destruct (coderFor coders f).
  - rewrite legacy_lookup. now destruct (coderFor coders format).
Qed.

(** Every binding the shipped registry resolves to has both operations, so
    neither check of [main] fires. *)
Lemma coder_has_both (file format action : string) (c : Coder iface) :
  coder coders file format action = inl c ->
  Decode c <> None /\ Encode c <> None.
Proof.
  unfold coder.
  destruct (if String.eqb format "" then _ else _) as [f|e]; [|discriminate].
  rewrite coderFor_coders.
  destruct (String.eqb "yaml" f); [intros [= <-]; split; discriminate|].
  destruct (String.eqb "json" f); [intros [= <-]; split; discriminate|].
  destruct (String.eqb "toml" f); [intros [= <-]; split; discriminate|].
  discriminate.
Qed.

(** On the shipped registry the two revisions of [main] run alike. *)
Lemma legacy_main (inputFile inputFormat outputFile outputFormat : string) :
  Legacy.main legacy_coders os inputFile inputFormat outputFile outputFormat
  = main coders os inputFile inputFormat outputFile outputFormat.
Proof.
  unfold Legacy.main, main. rewrite !legacy_coder.
  destruct (coder coders inputFile inputFormat "reading from stdin")
    as [incoder|e1] eqn:Hin; [|reflexivity].
  destruct (coder_has_both _ _ _ _ Hin) as [Hd _].
  destruct (Decode incoder) as [dec|] eqn:Ed; [clear Hd|congruence].
  cbn. rewrite Ed. cbn.
  destruct (coder coders outputFile outputFormat "writing to stdout")
    as [outcoder|e2] eqn:Hout; [|reflexivity].
  destruct (coder_has_both _ _ _ _ Hout) as [Hd _].
  destruct (Decode outcoder) as [dec'|] eqn:Ed'; [clear Hd|congruence].
  cbn. rewrite Ed'. cbn.
  unfold Legacy.call_Decode, call_Decode, Legacy.call_Encode, call_Encode.
  cbn. rewrite Ed, !proc_eta. reflexivity.
Qed.

(** The resolver of the earlier revision infers formats the same way. *)
Lemma legacy_extension_inference (file action : string) :
  file <> "" -> file <> "-" ->
  (In (extension file) recognized ->
     exists c, Legacy.coder legacy_coders file "" action = inl c
               /\ legacy_coders !! normalize (extension file) = Some c)
  /\ (~ In (extension file) recognized ->
     Legacy.coder legacy_coders file "" action =
       inr ("guessing format: can not detect format from file "
            +:+ file +:+ " extension")).
Proof.
  intros H1 H2. rewrite legacy_coder, (coder_inferred iface coders file action H1 H2).
  split.
  - intros Hin. apply normalize_recognized in Hin.
    destruct (coderFor_canonical iface readYAML readJSON readTOML
                writeYAML writeJSON writeTOML _ Hin) as (c & Hc & _).
    exists (forget_format c). rewrite legacy_lookup, Hc. auto.
  - intros Hout.
    rewrite (coderFor_unknown iface readYAML readJSON readTOML
               writeYAML writeJSON writeTOML); [reflexivity|].
    intros Hin. apply Hout. now apply normalize_canonical.
Qed.

Lemma legacy_format_required (registry : gmap string (Legacy.Coder iface))
    (file action : string) :
  file = "" \/ file = "-" ->
  Legacy.coder registry file "" action = inr ("format is required when " +:+ action).
Proof. intros [->| ->]; reflexivity. Qed.

Lemma legacy_decode_abort (inputFile inputFormat outputFile outputFormat : string) :
  decode_failed
    (Legacy.main legacy_coders os inputFile inputFormat outputFile outputFormat).1 ->
  decode_abort
    (Legacy.main legacy_coders os inputFile inputFormat outputFile outputFormat).
Proof. rewrite legacy_main. apply main_decode_abort. Qed.

Lemma legacy_unresolved (inputFile inputFormat outputFile outputFormat : string) :
  (exists e, Legacy.coder legacy_coders inputFile inputFormat "reading from stdin" = inr e)
  \/ (exists e, Legacy.coder legacy_coders outputFile outputFormat "writing to stdout" = inr e) ->
  exists msg,
    Legacy.main legacy_coders os inputFile inputFormat outputFile outputFormat
    = ([EvErrorf msg], Exit 1).
Proof.
  intros H. rewrite legacy_main. apply main_unresolved.
  rewrite !legacy_coder in H.
  destruct H as [[e H]|[e H]]; [left|right]; exists e;
    destruct (coder coders _ _ _); congruence.
Qed.

Lemma legacy_streams (inputFile inputFormat outputFile outputFormat : string) :
  closes_named_only inputFile outputFile
    (Legacy.main legacy_coders os inputFile inputFormat outputFile outputFormat).1
  /\ (inputFile = "" \/ inputFile = "-" ->
      reads_stdin
        (Legacy.main legacy_coders os inputFile inputFormat outputFile outputFormat).1)
  /\ (outputFile = "" \/ outputFile = "-" ->
      writes_stdout
        (Legacy.main legacy_coders os inputFile inputFormat outputFile outputFormat).1).
Proof. rewrite legacy_main. apply main_streams. Qed.

End Revisions.

(** ** Sample runs *)

Example Ext_plain : filepath.Ext "conf/app.JSON" = ".JSON".
Proof. reflexivity. Qed.

Example Ext_dotted_directory : filepath.Ext "conf.d/app" = "".
Proof. reflexivity. Qed.

Example Ext_hidden_file : filepath.Ext "conf/.toml" = ".toml".
Proof. reflexivity. Qed.

Example Ext_trailing_dot : filepath.Ext "notes." = ".".
Proof. reflexivity. Qed.

Example ToLower_extension : strings.ToLower ".JSON" = ".json".
Proof. reflexivity. Qed.

Example run_file_to_file :
  main sample_coders sample_os "in.json" "" "out.yml" ""
  = ([EvOpen "in.json"; EvCreate "out.yml";
      EvDecode (Opened "in.json") None;
      EvWrite (Created "out.yml") "{}"; EvEncode (Created "out.yml") None;
      EvClose (Created "out.yml"); EvClose (Opened "in.json")], Done tt).
Proof. vm_compute. reflexivity. Qed.

Example run_pipe :
  main sample_coders sample_os "" "yaml" "-" "toml"
  = ([EvDecode Stdin None; EvWrite Stdout "a: 1"; EvEncode Stdout None], Done tt).
Proof. vm_compute. reflexivity. Qed.

Example run_unknown_extension :
  main sample_coders sample_os "notes.txt" "" "-" "json"
  = ([EvErrorf "input: guessing format: can not detect format from file notes.txt extension"],
     Exit 1).
Proof. vm_compute. reflexivity. Qed.

(** * Further facts *)

(** ** More on [filepath.Ext] *)

Lemma substring_append_skip (s1 s2 : string) (n m : nat) :
  String.substring (String.length s1 + n) m (s1 +:+ s2) = String.substring n m s2.
Proof. induction s1 as [|c s1 IH]; simpl; [reflexivity | exact IH]. Qed.

Lemma Ext_from_last_element (dir name : string) (k : nat) :
  k <= String.length name ->
  filepath.Ext_from (dir +:+ String "/" name) (String.length dir + S k)
  = filepath.Ext_from name k.
Proof.
  induction k as [|k IH]; intros Hk.
  - replace (String.length dir + 1) with (S (String.length dir + 0)) by lia.
    simpl filepath.Ext_from. now rewrite get_append_right.
  - replace (String.length dir + S (S k)) with (S (String.length dir + S k)) by lia.
    simpl filepath.Ext_from. rewrite get_append_right. simpl String.get.
    destruct (get_in_range name k) as [c Hc]; [lia|]. rewrite Hc.
    destruct (filepath.IsPathSeparator c); [reflexivity|].
    destruct (Ascii.eqb c ".").
    + rewrite length_append. simpl String.length.
      replace (String.length dir + S (String.length name) - (String.length dir + S k))
        with (String.length name - k) by lia.
      rewrite substring_append_skip. reflexivity.
    + apply IH. lia.
Qed.

(** The extension is the one of the last path element. *)
Lemma Ext_last_element (dir name : string) :
  filepath.Ext (dir +:+ String "/" name) = filepath.Ext name.
Proof.
  unfold filepath.Ext. rewrite length_append. simpl String.length.
  apply Ext_from_last_element. lia.
Qed.


(** ** Sorting *)

Lemma insert_permutation (s : string) (l : list string) :
  Permutation (sort.insert s l) (s :: l).
Proof.
  induction l as [|x rest IH]; simpl; [reflexivity|].
  destruct (String.leb s x); [reflexivity|].
  rewrite IH. apply perm_swap.
Qed.

Lemma Strings_permutation (l : list string) : Permutation (sort.Strings l) l.
Proof.
  induction l as [|x rest IH]; simpl; [reflexivity|].
  rewrite insert_permutation. now constructor.
Qed.

Lemma insert_increasing (s : string) (l : list string) :
  increasing l -> increasing (sort.insert s l).
Proof.
  unfold increasing. induction l as [|x rest IH]; simpl; intros Hl.
  - repeat constructor.
  - destruct (String.leb s x) eqn:E.
    + constructor; [exact Hl | now constructor].
    + inversion Hl as [|? ? Hrest Hhd]; subst.
      constructor; [now apply IH|].
      assert (Hxs : String.leb x s = true).
      { destruct (String.leb_total s x); congruence. }
      destruct rest as [|y rest']; simpl.
      * now constructor.
      * destruct (String.leb s y); constructor; [exact Hxs|].
        now inversion Hhd.
Qed.

Lemma Strings_increasing (l : list string) : increasing (sort.Strings l).
Proof.
  induction l as [|x rest IH]; simpl; [constructor | now apply insert_increasing].
Qed.

Lemma In_Strings (l : list string) (s : string) : In s (sort.Strings l) <-> In s l.
Proof.
  split; apply Permutation_in; [|symmetry]; apply Strings_permutation.
Qed.

(** ** The registry, the resolver and [init] on any registry *)

Section AnyRegistry.

Variable iface : Type.
Variable registry : list (Coder iface).

Lemma coderFor_in_registry (format : string) (c : Coder iface) :
  coderFor registry format = Some c -> In c registry.
Proof.
  unfold coderFor. induction registry as [|c0 rest IH]; simpl; [discriminate|].
  destruct (String.eqb (Format c0) format); [intros [= <-]; now left | auto].
Qed.

Lemma coderFor_none (format : string) :
  coderFor registry format = None <-> ~ In format (map Format registry).
Proof.
  unfold coderFor. induction registry as [|c0 rest IH]; simpl; [tauto|].
  destruct (String.eqb_spec (Format c0) format) as [E|N].
  - split; [discriminate | intros H; exfalso; apply H; now left].
  - rewrite IH. tauto.
Qed.

(** X1. [coderFor] returns the first binding of the registry whose format
    is the one asked for: the bindings before it have other formats; it
    returns nil exactly when no binding has that format. *)
Theorem coderFor_lookup (format : string) :
  match coderFor registry format with
  | Some c =>
      exists before after,
        registry = before ++ c :: after
        /\ Format c = format
        /\ Forall (fun c' => Format c' <> format) before
  | None => Forall (fun c' => Format c' <> format) registry
  end.
Proof.
  unfold coderFor. induction registry as [|c0 rest IH]; simpl; [constructor|].
  destruct (String.eqb_spec (Format c0) format) as [E|N].
  - exists [], rest. auto.
  - destruct (coderFor_in rest format) as [c|].
    + destruct IH as (before & after & -> & Hf & Hb).
      exists (c0 :: before), after. auto.
    + auto.
Qed.


(** X3. [guessformat] looks at the last path element only: putting a
    directory in front of a name, dotted or not, changes nothing but the
    path the error names. *)
Theorem guessformat_last_element (dir name : string) :
  guessformat registry (dir +:+ String "/" name) =
    match guessformat registry name with
    | inl f => inl f
    | inr _ => inr ("can not detect format from file "
                    +:+ (dir +:+ String "/" name) +:+ " extension")
    end.
Proof.
  rewrite !guessformat_candidate. unfold extension. rewrite Ext_last_element.
  now destruct (coderFor registry _).
Qed.


Lemma init_loop_spec (cs : list (Coder iface)) (formats encoders decoders : list string) :
  init_loop cs formats encoders decoders
  = (formats ++ map Format cs,
     encoders ++ map Format (List.filter can_encode cs),
     decoders ++ map Format (List.filter can_decode cs)).
Proof.
  revert formats encoders decoders.
  induction cs as [|c rest IH]; intros formats encoders decoders; simpl.
  - now rewrite !app_nil_r.
  - rewrite IH. unfold can_encode, can_decode.
    destruct (Encode c), (Decode c); simpl;
      repeat rewrite <- app_assoc; reflexivity.
Qed.

Lemma init_spec (help : string) :
  init registry help
  = (sort.Strings (map Format registry),
     (help +:+ nl +:+ nl +:+ "Supported formats for input decoding: "
           +:+ strings.Join (sort.Strings (map Format (List.filter can_decode registry))) " ")
       +:+ nl +:+ nl +:+ "Supported formats for output encoding: "
       +:+ strings.Join (sort.Strings (map Format (List.filter can_encode registry))) " ").
Proof. unfold init. rewrite init_loop_spec. reflexivity. Qed.


Lemma In_init_formats (help f : string) :
  In f (init registry help).1 <-> exists c, coderFor registry f = Some c.
Proof.
  rewrite init_spec. simpl fst. rewrite In_Strings. split.
  - intros Hin. destruct (coderFor registry f) as [c|] eqn:E; [eauto|].
    now apply coderFor_none in E.
  - intros [c Hc].
    destruct (in_dec String.string_dec f (map Format registry)) as [|N]; [assumption|].
    apply coderFor_none in N. congruence.
Qed.

(** X5. The [formats] that [init] leaves (the values the two format flags
    accept) are the formats of the registry rearranged in increasing order,
    and a format is among them exactly when [coderFor] finds a binding for
    it. *)
Theorem init_formats (help : string) :
  increasing (init registry help).1
  /\ Permutation (init registry help).1 (map Format registry)
  /\ forall f, In f (init registry help).1 <-> exists c, coderFor registry f = Some c.
Proof.
  split; [|split; [|intros f; apply In_init_formats]];
    rewrite init_spec; simpl fst.
  - apply Strings_increasing.
  - apply Strings_permutation.
Qed.


(** X7. An explicit format taken from the [formats] of [init] always
    resolves: [coder] returns a binding of the registry with that format,
    whatever the path and the action; the error "unknown input format" is
    out of reach for such a value. *)
Theorem accepted_format_resolves (help file format action : string) :
  format <> "" ->
  In format (init registry help).1 ->
  exists c, coder registry file format action = inl c
            /\ Format c = format /\ In c registry.
Proof.
  intros Hne Hin. apply In_init_formats in Hin as [c Hc].
  exists c. unfold coder. apply String.eqb_neq in Hne. rewrite Hne, Hc.
  split; [reflexivity|]. split.
  - now apply coderFor_Format in Hc.
  - now apply coderFor_in_registry in Hc.
Qed.

End AnyRegistry.

(** ** Every way a run of [main] goes *)

Ltac use_tests :=
  repeat match goal with
  | H : false = false -> _ |- _ => specialize (H eq_refl)
  | H : true = false -> _ |- _ => clear H
  end.

Ltac rewrite_run :=
  repeat (match goal with
          | H : ?l = _ |- context [?l] => rewrite H
          end; cbn).

(** Runs [main] along the branch the hypotheses select. *)
Ltac run_by_hyps inputFile outputFile :=
  unfold converted, acquired, released, input_of, output_of, is_std in *;
  step_main;
  destruct (String.eqb inputFile "" || String.eqb inputFile "-");
  destruct (String.eqb outputFile "" || String.eqb outputFile "-");
  use_tests; rewrite_run; try reflexivity.

Ltac open_checks H :=
  let Hin := fresh "Hin" in let Hout := fresh "Hout" in
  let Hdi := fresh "Hdi" in let Hdo := fresh "Hdo" in
  destruct H as (Hin & Hout & Hdi & Hdo);
  match type of Hdi with Decode ?c <> None =>
    destruct (Decode c) eqn:?; [clear Hdi | congruence] end;
  match type of Hdo with Decode ?c <> None =>
    destruct (Decode c) eqn:?; [clear Hdo | congruence] end;
  simplify_eq.

Section EveryRun.

Variable iface : Type.
Variable registry : list (Coder iface).
Variable os : OS.

(** The three endings of [main] and what each one tells. *)
Lemma main_outcome (inputFile inputFormat outputFile outputFormat : string)
    (t : list event) (r : ending unit) :
  main registry os inputFile inputFormat outputFile outputFormat = (t, r) ->
  match r with
  | Done _ =>
      exists incoder outcoder dec enc data bytes,
        coder registry inputFile inputFormat "reading from stdin" = inl incoder
        /\ coder registry outputFile outputFormat "writing to stdout" = inl outcoder
        /\ Decode incoder = Some dec /\ Encode outcoder = Some enc
        /\ dec ∅ (content os (input_of inputFile)) = (data, None)
        /\ enc data = (bytes, None)
        /\ t = converted inputFile outputFile bytes
  | Exit code => code = 1 /\ exists msg, last t = Some (EvErrorf msg)
  | Panic =>
      exists outcoder,
        coder registry outputFile outputFormat "writing to stdout" = inl outcoder
        /\ Encode outcoder = None
  end.
Proof.
  unfold converted, acquired, released, input_of, output_of, is_std.
  match goal with |- ?A -> ?C =>
    let P := eval pattern t, r in C in
    match P with ?F _ _ => set (outcome := F); change (A -> outcome t r) end
  end.
  revert t r. main_cases.
  all: intros t r [= <- <-]; subst outcome; cbn beta iota.
  all: try (split; [reflexivity|eexists; reflexivity]).
  all: try (eexists; split; [reflexivity|assumption]).
  all: repeat match goal with
       | H : String.eqb _ _ || String.eqb _ _ = _ |- _ => rewrite H
       end.
  all: do 6 eexists; repeat split; eauto.
Qed.

(** X8. When both formats resolve and pass the checks, the named files
    open and close without error, decoding the input into the empty document
    gives [data] and encoding [data] gives [bytes], both without error, the
    run is a complete conversion: it acquires the streams, decodes, writes
    exactly [bytes] to the output, releases the output and then the input,
    and returns. *)
Theorem successful_run
    (inputFile inputFormat outputFile outputFormat bytes : string)
    (incoder outcoder : Coder iface) (dec : decoder iface) (enc : encoder iface)
    (data : document iface) :
  checks_pass registry inputFile inputFormat outputFile outputFormat incoder outcoder ->
  acquirable os inputFile outputFile ->
  Decode incoder = Some dec ->
  dec ∅ (content os (input_of inputFile)) = (data, None) ->
  Encode outcoder = Some enc ->
  enc data = (bytes, None) ->
  releasable os inputFile outputFile ->
  main registry os inputFile inputFormat outputFile outputFormat
  = (converted inputFile outputFile bytes, Done tt).
Proof.
  intros Hres [Ho Hc] Hdec Hrun Henc Hwr [Hci Hco]. open_checks Hres.
  run_by_hyps inputFile outputFile.
Qed.

(** X9. A run of [main] that returns is a complete conversion: both
    formats resolved, the decoder of the input binding turned the input into
    a document without error, and what the run wrote is what the encoder of
    the output binding made of that very document. *)
Theorem done_run_is_a_conversion
    (inputFile inputFormat outputFile outputFormat : string) :
  (main registry os inputFile inputFormat outputFile outputFormat).2 = Done tt ->
  exists incoder outcoder dec enc data bytes,
    coder registry inputFile inputFormat "reading from stdin" = inl incoder
    /\ coder registry outputFile outputFormat "writing to stdout" = inl outcoder
    /\ Decode incoder = Some dec /\ Encode outcoder = Some enc
    /\ dec ∅ (content os (input_of inputFile)) = (data, None)
    /\ enc data = (bytes, None)
    /\ (main registry os inputFile inputFormat outputFile outputFormat).1
       = converted inputFile outputFile bytes.
Proof.
  destruct (main registry os inputFile inputFormat outputFile outputFormat)
    as [t r] eqn:E. simpl. intros ->. exact (main_outcome _ _ _ _ _ _ E).
Qed.

(** X10. A run of [main] that ends the process does so with exit code 1,
    and the last thing it does is print a diagnostic: no failure is silent. *)
Theorem fatal_run_is_reported
    (inputFile inputFormat outputFile outputFormat : string) (code : nat) :
  (main registry os inputFile inputFormat outputFile outputFormat).2 = Exit code ->
  code = 1
  /\ exists msg,
       last (main registry os inputFile inputFormat outputFile outputFormat).1
       = Some (EvErrorf msg).
Proof.
  destruct (main registry os inputFile inputFormat outputFile outputFormat)
    as [t r] eqn:E. simpl. intros ->. exact (main_outcome _ _ _ _ _ _ E).
Qed.

(** X11. [main] panics only on the nil encode call: the output format
    resolved to a binding that has no encode operation. *)
Theorem panic_needs_missing_encode
    (inputFile inputFormat outputFile outputFormat : string) :
  (main registry os inputFile inputFormat outputFile outputFormat).2 = Panic ->
  exists outcoder,
    coder registry outputFile outputFormat "writing to stdout" = inl outcoder
    /\ Encode outcoder = None.
Proof.
  destruct (main registry os inputFile inputFormat outputFile outputFormat)
    as [t r] eqn:E. simpl. intros ->. exact (main_outcome _ _ _ _ _ _ E).
Qed.

(** X13. When decoding fails, the run has already acquired both streams:
    a named output file is created (and so truncated) before the input is
    decoded. The run then stops on the diagnostic "decoding: <error>" with
    exit code 1, and closes nothing. *)
Theorem decode_failure_run
    (inputFile inputFormat outputFile outputFormat e : string)
    (incoder outcoder : Coder iface) (dec : decoder iface) (data : document iface) :
  checks_pass registry inputFile inputFormat outputFile outputFormat incoder outcoder ->
  acquirable os inputFile outputFile ->
  Decode incoder = Some dec ->
  dec ∅ (content os (input_of inputFile)) = (data, Some e) ->
  main registry os inputFile inputFormat outputFile outputFormat
  = (acquired inputFile outputFile
     ++ [EvDecode (input_of inputFile) (Some e); EvErrorf ("decoding: " +:+ e)],
     Exit 1).
Proof.
  intros Hres [Ho Hc] Hdec Hrun. open_checks Hres.
  run_by_hyps inputFile outputFile.
Qed.

(** X14. When encoding fails, the bytes the encoder wrote before its
    error stay written; the run stops on the diagnostic "encoding: <error>"
    with exit code 1, and closes nothing. *)
Theorem encode_failure_run
    (inputFile inputFormat outputFile outputFormat bytes e : string)
    (incoder outcoder : Coder iface) (dec : decoder iface) (enc : encoder iface)
    (data : document iface) :
  checks_pass registry inputFile inputFormat outputFile outputFormat incoder outcoder ->
  acquirable os inputFile outputFile ->
  Decode incoder = Some dec ->
  dec ∅ (content os (input_of inputFile)) = (data, None) ->
  Encode outcoder = Some enc ->
  enc data = (bytes, Some e) ->
  main registry os inputFile inputFormat outputFile outputFormat
  = (acquired inputFile outputFile
     ++ [EvDecode (input_of inputFile) None;
         EvWrite (output_of outputFile) bytes;
         EvEncode (output_of outputFile) (Some e);
         EvErrorf ("encoding: " +:+ e)],
     Exit 1).
Proof.
  intros Hres [Ho Hc] Hdec Hrun Henc Hwr. open_checks Hres.
  run_by_hyps inputFile outputFile.
Qed.

(** X15. When the named input file cannot be opened, the run stops there:
    the diagnostic names the path and the cause, the exit code is 1, and the
    output file is not created. *)
Theorem input_open_failure
    (inputFile inputFormat outputFile outputFormat e : string)
    (incoder outcoder : Coder iface) :
  checks_pass registry inputFile inputFormat outputFile outputFormat incoder outcoder ->
  is_std inputFile = false ->
  open_error os inputFile = Some e ->
  main registry os inputFile inputFormat outputFile outputFormat
  = ([EvOpen inputFile;
      EvErrorf ("opening input: opening " +:+ inputFile +:+ ": " +:+ e)],
     Exit 1).
Proof.
  intros Hres Hstd Hopen. open_checks Hres.
  unfold is_std in Hstd. step_main. rewrite_run. reflexivity.
Qed.

(** X16. When the named output file cannot be created, the input has
    already been opened; the run stops on the diagnostic with exit code 1,
    decodes nothing and does not close the input. *)
Theorem output_open_failure
    (inputFile inputFormat outputFile outputFormat e : string)
    (incoder outcoder : Coder iface) :
  checks_pass registry inputFile inputFormat outputFile outputFormat incoder outcoder ->
  (is_std inputFile = false -> open_error os inputFile = None) ->
  is_std outputFile = false ->
  create_error os outputFile = Some e ->
  main registry os inputFile inputFormat outputFile outputFormat
  = ((if is_std inputFile then [] else [EvOpen inputFile])
     ++ [EvCreate outputFile;
         EvErrorf ("opening output: opening " +:+ outputFile +:+ ": " +:+ e)],
     Exit 1).
Proof.
  intros Hres Ho Hstd Hcreate. open_checks Hres.
  unfold is_std in *. step_main.
  destruct (String.eqb inputFile "" || String.eqb inputFile "-");
    use_tests; rewrite_run; reflexivity.
Qed.

(** X17. When closing the named output file fails after a complete
    conversion, every byte has been written, yet the run ends with the
    diagnostic "closing output file: <error>" and exit code 1, and the input
    file is left unclosed. *)
Theorem output_close_failure
    (inputFile inputFormat outputFile outputFormat bytes e : string)
    (incoder outcoder : Coder iface) (dec : decoder iface) (enc : encoder iface)
    (data : document iface) :
  checks_pass registry inputFile inputFormat outputFile outputFormat incoder outcoder ->
  acquirable os inputFile outputFile ->
  Decode incoder = Some dec ->
  dec ∅ (content os (input_of inputFile)) = (data, None) ->
  Encode outcoder = Some enc ->
  enc data = (bytes, None) ->
  is_std outputFile = false ->
  close_error os (Created outputFile) = Some e ->
  main registry os inputFile inputFormat outputFile outputFormat
  = (acquired inputFile outputFile
     ++ [EvDecode (input_of inputFile) None;
         EvWrite (Created outputFile) bytes;
         EvEncode (Created outputFile) None;
         EvClose (Created outputFile);
         EvErrorf ("closing output file: " +:+ e)],
     Exit 1).
Proof.
  intros Hres [Ho Hc] Hdec Hrun Henc Hwr Hstd Hclose. open_checks Hres.
  unfold converted, acquired, released, input_of, output_of, is_std in *.
  step_main. rewrite Hstd in *.
  destruct (String.eqb inputFile "" || String.eqb inputFile "-");
    use_tests; rewrite_run; reflexivity.
Qed.

(** X18. An input format that resolves to a binding without decode
    operation is turned away before anything else happens: one diagnostic,
    "input format <format> not supported for decoding", exit code 1, no file
    opened or created. *)
Theorem undecodable_input_rejected
    (inputFile inputFormat outputFile outputFormat : string) (incoder : Coder iface) :
  coder registry inputFile inputFormat "reading from stdin" = inl incoder ->
  Decode incoder = None ->
  main registry os inputFile inputFormat outputFile outputFormat
  = ([EvErrorf ("input format " +:+ Format incoder
                +:+ " not supported for decoding")], Exit 1).
Proof. apply main_input_undecodable. Qed.

End EveryRun.

Section ShippedRegistry.

Variable iface : Type.
Variables readYAML readJSON readTOML : decoder iface.
Variables writeYAML writeJSON writeTOML : encoder iface.
Variable os : OS.

Local Abbreviation coders :=
  (coders readYAML readJSON readTOML writeYAML writeJSON writeTOML).
Local Abbreviation legacy_coders :=
  (Legacy.coders readYAML readJSON readTOML writeYAML writeJSON writeTOML).

(** X12. With the registry of the source, [main] never panics: whatever
    the flags, the files and the codecs do, a run returns or ends with exit
    code 1. *)
Theorem shipped_registry_never_panics
    (inputFile inputFormat outputFile outputFormat : string) :
  (main coders os inputFile inputFormat outputFile outputFormat).2 = Done tt
  \/ (main coders os inputFile inputFormat outputFile outputFormat).2 = Exit 1.
Proof.
  destruct (main coders os inputFile inputFormat outputFile outputFormat)
    as [t r] eqn:E. simpl.
  pose proof (main_outcome iface coders os _ _ _ _ _ _ E) as H.
  destruct r as [[]|code|].
  - now left.
  - destruct H as [-> _]. now right.
  - destruct H as (outcoder & Hout & Henc).
    destruct (coder_has_both iface readYAML readJSON readTOML
                writeYAML writeJSON writeTOML _ _ _ _ Hout) as [_ Hboth].
    congruence.
Qed.

(** X19. On the registry they ship, the two revisions agree: the resolver
    of the earlier revision returns the binding that the one of [main.go]
    returns (less its [Format] field) or the same error, and the two [main]
    make the same run, for all flag values and every state of the file
    system. *)
Theorem revisions_agree (inputFile inputFormat outputFile outputFormat action : string) :
  Legacy.coder legacy_coders inputFile inputFormat action
  = match coder coders inputFile inputFormat action with
    | inl c => inl (forget_format c)
    | inr e => inr e
    end
  /\ Legacy.main legacy_coders os inputFile inputFormat outputFile outputFormat
     = main coders os inputFile inputFormat outputFile outputFormat.
Proof. split; [apply legacy_coder | apply legacy_main]. Qed.

End ShippedRegistry.

(** ** The earlier revision on any registry *)

Ltac step_legacy :=
  unfold Legacy.main, file, FatalIfError_of, FatalIfError, Fatalf,
    Legacy.call_Decode, Legacy.call_Encode, defer, os_Open, os_Create, Close,
    emit, exit, panic, mbind, mret, proc_bind, proc_ret.

(** X20. The earlier revision makes no check on the bindings. When the
    input format resolves to a binding without decode operation, its [main]
    acquires both streams (a named output file is created, and so
    truncated), panics on the nil decode call, and the deferred calls release
    the output and then the input. *)
Theorem legacy_missing_decode_panics (iface : Type)
    (registry : gmap string (Legacy.Coder iface)) (os : OS)
    (inputFile inputFormat outputFile outputFormat : string)
    (incoder outcoder : Legacy.Coder iface) :
  Legacy.coder registry inputFile inputFormat "reading from stdin" = inl incoder ->
  Legacy.coder registry outputFile outputFormat "writing to stdout" = inl outcoder ->
  Legacy.Decode incoder = None ->
  acquirable os inputFile outputFile ->
  releasable os inputFile outputFile ->
  Legacy.main registry os inputFile inputFormat outputFile outputFormat
  = (acquired inputFile outputFile ++ released inputFile outputFile, Panic).
Proof.
  intros Hin Hout Hdec [Ho Hc] [Hci Hco].
  unfold acquired, released, is_std in *. step_legacy.
  destruct (String.eqb inputFile "" || String.eqb inputFile "-");
  destruct (String.eqb outputFile "" || String.eqb outputFile "-");
  use_tests; rewrite_run; reflexivity.
Qed.

(** ** The further facts on the sample world *)



Lemma accepted_format_resolves_witness :
  (init sample_coders "usage").1 = ["json"; "toml"; "yaml"]
  /\ exists c, coder sample_coders "-" "toml" "writing to stdout" = inl c
               /\ Format c = "toml" /\ In c sample_coders.
Proof.
  split; [reflexivity|].
  apply (accepted_format_resolves string sample_coders "usage" "-" "toml"
           "writing to stdout"); [discriminate | simpl; tauto].
Defined.

Lemma sample_checks_pass (registry : list (Coder string))
    (inputFile inputFormat outputFile outputFormat : string)
    (incoder outcoder : Coder string) :
  coder registry inputFile inputFormat "reading from stdin" = inl incoder ->
  coder registry outputFile outputFormat "writing to stdout" = inl outcoder ->
  can_decode incoder = true -> can_decode outcoder = true ->
  checks_pass registry inputFile inputFormat outputFile outputFormat incoder outcoder.
Proof.
  unfold can_decode. intros Hin Hout Hdi Hdo. repeat split; try assumption.
  - destruct (Decode incoder); [discriminate | discriminate Hdi].
  - destruct (Decode outcoder); [discriminate | discriminate Hdo].
Defined.

Lemma successful_run_witness :
  main sample_coders sample_os "in.json" "" "out.yml" ""
  = (converted "in.json" "out.yml" "{}", Done tt).
Proof.
  apply (successful_run string sample_coders sample_os "in.json" "" "out.yml" "" "{}"
           {| Format := "json"; Decode := Some sample_read; Encode := Some sample_write |}
           {| Format := "yaml"; Decode := Some sample_read; Encode := Some sample_write |}
           sample_read sample_write (<["text" := "{}"]> ∅)).
  - apply sample_checks_pass; reflexivity.
  - split; reflexivity.
  - reflexivity.
  - reflexivity.
  - reflexivity.
  - reflexivity.
  - split; reflexivity.
Defined.

Lemma done_run_is_a_conversion_witness :
  exists incoder outcoder dec enc data bytes,
    coder sample_coders "" "yaml" "reading from stdin" = inl incoder
    /\ coder sample_coders "-" "toml" "writing to stdout" = inl outcoder
    /\ Decode incoder = Some dec /\ Encode outcoder = Some enc
    /\ dec ∅ (content sample_os (input_of "")) = (data, None)
    /\ enc data = (bytes, None)
    /\ (main sample_coders sample_os "" "yaml" "-" "toml").1
       = converted "" "-" bytes.
Proof.
  apply (done_run_is_a_conversion string sample_coders sample_os "" "yaml" "-" "toml").
  vm_compute. reflexivity.
Defined.

Lemma fatal_run_is_reported_witness :
  1 = 1
  /\ exists msg,
       last (main sample_coders sample_os "notes.txt" "" "-" "json").1
       = Some (EvErrorf msg).
Proof.
  apply (fatal_run_is_reported string sample_coders sample_os "notes.txt" "" "-" "json" 1).
  vm_compute. reflexivity.
Defined.

Lemma panic_needs_missing_encode_witness :
  exists outcoder,
    coder one_way_coders "-" "dump" "writing to stdout" = inl outcoder
    /\ Encode outcoder = None.
Proof.
  apply (panic_needs_missing_encode string one_way_coders sample_os "-" "yaml" "-" "dump").
  vm_compute. reflexivity.
Defined.

Lemma decode_failure_run_witness :
  main sample_coders sample_os "empty.yaml" "" "out.json" ""
  = ([EvOpen "empty.yaml"; EvCreate "out.json";
      EvDecode (Opened "empty.yaml") (Some "EOF"); EvErrorf "decoding: EOF"],
     Exit 1).
Proof.
  apply (decode_failure_run string sample_coders sample_os
           "empty.yaml" "" "out.json" "" "EOF"
           {| Format := "yaml"; Decode := Some sample_read; Encode := Some sample_write |}
           {| Format := "json"; Decode := Some sample_read; Encode := Some sample_write |}
           sample_read ∅).
  - apply sample_checks_pass; reflexivity.
  - split; reflexivity.
  - reflexivity.
  - reflexivity.
Defined.

Lemma encode_failure_run_witness :
  main refusing_coders sample_os "-" "yaml" "out.toml" ""
  = ([EvCreate "out.toml"; EvDecode Stdin None;
      EvWrite (Created "out.toml") "# part";
      EvEncode (Created "out.toml") (Some "unsupported value");
      EvErrorf "encoding: unsupported value"],
     Exit 1).
Proof.
  apply (encode_failure_run string refusing_coders sample_os
           "-" "yaml" "out.toml" "" "# part" "unsupported value"
           {| Format := "yaml"; Decode := Some sample_read; Encode := Some sample_write |}
           {| Format := "toml"; Decode := Some sample_read; Encode := Some refusing_write |}
           sample_read refusing_write (<["text" := "a: 1"]> ∅)).
  - apply sample_checks_pass; reflexivity.
  - split; [discriminate | reflexivity].
  - reflexivity.
  - reflexivity.
  - reflexivity.
  - reflexivity.
Defined.

Lemma input_open_failure_witness :
  main sample_coders faulty_os "missing.json" "" "out.yaml" ""
  = ([EvOpen "missing.json";
      EvErrorf "opening input: opening missing.json: no such file"],
     Exit 1).
Proof.
  apply (input_open_failure string sample_coders faulty_os
           "missing.json" "" "out.yaml" "" "no such file"
           {| Format := "json"; Decode := Some sample_read; Encode := Some sample_write |}
           {| Format := "yaml"; Decode := Some sample_read; Encode := Some sample_write |}).
  - apply sample_checks_pass; reflexivity.
  - reflexivity.
  - reflexivity.
Defined.

Lemma output_open_failure_witness :
  main sample_coders faulty_os "in.json" "" "readonly.yaml" ""
  = ([EvOpen "in.json"; EvCreate "readonly.yaml";
      EvErrorf "opening output: opening readonly.yaml: permission denied"],
     Exit 1).
Proof.
  apply (output_open_failure string sample_coders faulty_os
           "in.json" "" "readonly.yaml" "" "permission denied"
           {| Format := "json"; Decode := Some sample_read; Encode := Some sample_write |}
           {| Format := "yaml"; Decode := Some sample_read; Encode := Some sample_write |}).
  - apply sample_checks_pass; reflexivity.
  - reflexivity.
  - reflexivity.
  - reflexivity.
Defined.

Lemma output_close_failure_witness :
  main sample_coders faulty_os "in.json" "" "full.toml" ""
  = ([EvOpen "in.json"; EvCreate "full.toml";
      EvDecode (Opened "in.json") None;
      EvWrite (Created "full.toml") "{}"; EvEncode (Created "full.toml") None;
      EvClose (Created "full.toml");
      EvErrorf "closing output file: no space left"],
     Exit 1).
Proof.
  apply (output_close_failure string sample_coders faulty_os
           "in.json" "" "full.toml" "" "{}" "no space left"
           {| Format := "json"; Decode := Some sample_read; Encode := Some sample_write |}
           {| Format := "toml"; Decode := Some sample_read; Encode := Some sample_write |}
           sample_read sample_write (<["text" := "{}"]> ∅)).
  - apply sample_checks_pass; reflexivity.
  - split; reflexivity.
  - reflexivity.
  - reflexivity.
  - reflexivity.
  - reflexivity.
  - reflexivity.
  - reflexivity.
Defined.

Lemma undecodable_input_rejected_witness :
  main one_way_coders sample_os "in.json" "sink" "out.yaml" ""
  = ([EvErrorf "input format sink not supported for decoding"], Exit 1).
Proof.
  exact (undecodable_input_rejected string one_way_coders sample_os
           "in.json" "sink" "out.yaml" ""
           {| Format := "sink"; Decode := None; Encode := Some sample_write |}
           eq_refl eq_refl).
Defined.

Lemma legacy_missing_decode_panics_witness :
  Legacy.main legacy_one_way sample_os "in.json" "sink" "out.yaml" ""
  = ([EvOpen "in.json"; EvCreate "out.yaml";
      EvClose (Created "out.yaml"); EvClose (Opened "in.json")], Panic).
Proof.
  apply (legacy_missing_decode_panics string legacy_one_way sample_os
           "in.json" "sink" "out.yaml" ""
           {| Legacy.Encode := Some sample_write; Legacy.Decode := None |}
           {| Legacy.Encode := Some sample_write; Legacy.Decode := Some sample_read |}).
  - vm_compute. reflexivity.
  - vm_compute. reflexivity.
  - reflexivity.
  - split; reflexivity.
  - split; reflexivity.
Defined.
